(** * EnhancedFontResizer: a shallow embedding of [font_resizer.py]

    The plugin is a thin layer over the host editor's settings API.  The
    embedding keeps the shape of the Python source: the host objects the
    plugin talks to are gathered in a [world] record that is threaded through
    every call, the four command classes are four modules that provide
    [get_font_size], [set_font_size] and [erase_font_size], and
    [BaseFontSize] holds the shared arithmetic. *)

From stdpp Require Import gmap strings pretty.
From Stdlib Require Import ZArith Lia.

Local Open Scope string_scope.
Local Open Scope Z_scope.

(** ** Python values and exceptions *)

(** The values a setting can hold, as far as the plugin looks at them:
    [None], integers (Python integers are unbounded, hence [Z]) and strings.
    Font sizes are integers (data model of the specification, section 3). *)
Inductive value : Type :=
  | VNone
  | VInt (n : Z)
  | VStr (s : string).

#[global] Instance value_eq_dec : EqDecision value.
Proof. solve_decision. Defined.

(** [str(v)], as used by an f-string. *)
Definition py_str (v : value) : string :=
  match v with
  | VNone => "None"
  | VInt n => pretty n
  | VStr s => s
  end.

(** Comparing or adding [None] or a string with an integer raises
    [TypeError]; nothing else in the plugin can raise. *)
Inductive exn : Type := TypeError.

Inductive result (A : Type) : Type :=
  | Ok (a : A)
  | Raise (e : exn).
Arguments Ok {A} a.
Arguments Raise {A} e.

#[global] Instance result_ret : MRet result := fun _ a => Ok a.
#[global] Instance result_bind : MBind result := fun _ _ f m =>
  match m with
  | Ok a => f a
  | Raise e => Raise e
  end.

(** The integer behind a value that is used as a number. *)
Definition as_int (v : value) : result Z :=
  match v with
  | VInt n => Ok n
  | _ => Raise TypeError
  end.

(** ** The host: settings stores, project data, view settings, console *)

(** A settings object or a dict with string keys. *)
Abbreviation dict := (gmap string value).

(** What [window.project_data()] returns when it is not [None]: a dict of
    which the plugin only reads and replaces the ["settings"] entry; the
    other entries ([folders], build systems, ...) are carried along. *)
Record project_data : Type := ProjectData {
  pd_settings : option dict;
  pd_other : dict
}.

(** The empty dict [{}]. *)
Definition empty_project_data : project_data :=
  {| pd_settings := None; pd_other := ∅ |}.

(** Calls into the host that change something or show something, in the
    order in which they are made. *)
Inductive event : Type :=
  | SettingsSet (file key : string) (v : value)
  | SettingsErase (file key : string)
  | SaveSettings (file : string)
  | SetProjectData (pd : project_data)
  | ViewSet (key : string) (v : value)
  | ViewErase (key : string)
  | Print (line : string).

(** Modelled from the spec: the host editor's settings accessor (module
    [sublime]) is an external collaborator; following section 2 it is a
    key-value store keyed by string name that supports get-with-fallback,
    set, erase and an explicit persist operation.  [files] holds the stores
    that [sublime.load_settings] hands out, by file name; [window_project]
    is what [self.window.project_data()] returns; [view_settings] is
    [self.view.settings()]; [syntax_base] is
    [splitext(basename(self.view.syntax().path))[0]]; [trace] records the
    mutating and printing calls made so far. *)
Record world : Type := World {
  files : gmap string dict;
  window_project : option project_data;
  view_settings : dict;
  syntax_base : string;
  trace : list event
}.

Definition emit (e : event) (w : world) : world :=
  {| files := files w; window_project := window_project w;
     view_settings := view_settings w; syntax_base := syntax_base w;
     trace := trace w ++ [e] |}.

Definition with_files (fs : gmap string dict) (w : world) : world :=
  {| files := fs; window_project := window_project w;
     view_settings := view_settings w; syntax_base := syntax_base w;
     trace := trace w |}.

(** [sublime.load_settings(file)]: the store of that name, empty when the
    host has nothing under it. *)
Definition load_settings (file : string) (w : world) : dict :=
  default ∅ (files w !! file).

(** [settings.get(key, dflt)] and [d.get(key, dflt)]. *)
Definition settings_get (s : dict) (key : string) (dflt : value) : value :=
  default dflt (s !! key).

(** [settings.has(key)] and [key in d]. *)
Definition settings_has (s : dict) (key : string) : bool :=
  bool_decide (is_Some (s !! key)).

(** [sublime.load_settings(file).set(key, v)]. *)
Definition settings_set (file key : string) (v : value) (w : world) : world :=
  emit (SettingsSet file key v)
       (with_files (<[file := <[key := v]> (load_settings file w)]> (files w)) w).

(** [sublime.load_settings(file).erase(key)]. *)
Definition settings_erase (file key : string) (w : world) : world :=
  emit (SettingsErase file key)
       (with_files (<[file := delete key (load_settings file w)]> (files w)) w).

(** [sublime.save_settings(file)]. *)
Definition save_settings (file : string) (w : world) : world :=
  emit (SaveSettings file) w.

(** [self.window.set_project_data(pd)]. *)
Definition set_project_data (pd : project_data) (w : world) : world :=
  emit (SetProjectData pd)
       {| files := files w; window_project := Some pd;
          view_settings := view_settings w; syntax_base := syntax_base w;
          trace := trace w |}.

(** [self.view.settings().set(key, v)] and [.erase(key)]. *)
Definition view_set (key : string) (v : value) (w : world) : world :=
  emit (ViewSet key v)
       {| files := files w; window_project := window_project w;
          view_settings := <[key := v]> (view_settings w);
          syntax_base := syntax_base w; trace := trace w |}.

Definition view_erase (key : string) (w : world) : world :=
  emit (ViewErase key)
       {| files := files w; window_project := window_project w;
          view_settings := delete key (view_settings w);
          syntax_base := syntax_base w; trace := trace w |}.

(** [print(line)]. *)
Definition print (line : string) (w : world) : world := emit (Print line) w.

Definition Preferences : string := "Preferences.sublime-settings".

(** ** [plugin_loaded] *)

(** One round of the loop over [defaults.items()]; the state is the world
    together with the flag [updated]. *)
Definition seed_default (st : world * bool) (item : string * value)
  : world * bool :=
  let '(w, updated) := st in
  let '(name, dflt) := item in
  if settings_has (load_settings Preferences w) name
  then (w, updated)
  else (settings_set Preferences name dflt w, true).

Definition plugin_loaded (w : world) : world :=
  let settings := load_settings Preferences w in
  let defaults :=
    [ ("default_font_size", settings_get settings "font_size" VNone);
      ("min_font_size", VInt 8);
      ("max_font_size", VInt 128) ] in
  let '(w, updated) := foldl seed_default (w, false) defaults in
  if updated then save_settings Preferences w else w.

(** ** [FontResizeCommandRewriter] *)

(** [on_window_command] returns a pair of a command name and its arguments,
    or falls off the end and returns [None]. *)
Definition on_window_command (command : string) (args : dict)
  : option (string * dict) :=
  if decide (command = "increase_font_size")
  then Some ("global_font_size", {[ "action" := VStr "increase" ]})
  else if decide (command = "decrease_font_size")
  then Some ("global_font_size", {[ "action" := VStr "decrease" ]})
  else if decide (command = "reset_font_size")
  then Some ("global_font_size", {[ "action" := VStr "reset" ]})
  else None.

(** ** The four command classes *)

(** [BaseFontSize.global_font_constraints]: (default, min, max). *)
Definition global_font_constraints (w : world) : value * value * value :=
  let settings := load_settings Preferences w in
  (settings_get settings "default_font_size" (VInt 10),
   settings_get settings "min_font_size" (VInt 8),
   settings_get settings "max_font_size" (VInt 128)).

Module GlobalFontSizeCommand.

Definition get_font_size (w : world) : value :=
  let settings := load_settings Preferences w in
  let '(default_size, _, _) := global_font_constraints w in
  settings_get settings "font_size" default_size.

Definition set_font_size (new_font_size : value) (w : world) : world :=
  save_settings Preferences
    (settings_set Preferences "font_size" new_font_size w).

Definition erase_font_size (w : world) : world :=
  let '(default_size, _, _) := global_font_constraints w in
  set_font_size default_size w.

End GlobalFontSizeCommand.

Module WindowFontSizeCommand.

Definition get_window_settings (w : world) : dict :=
  let project_data := default empty_project_data (window_project w) in
  default ∅ (pd_settings project_data).

Definition set_window_settings (settings : dict) (w : world) : world :=
  let project_data := default empty_project_data (window_project w) in
  set_project_data
    {| pd_settings := Some settings; pd_other := pd_other project_data |} w.

Definition get_font_size (w : world) : value :=
  let settings := get_window_settings w in
  let '(default_size, _, _) := global_font_constraints w in
  settings_get settings "font_size" default_size.

Definition set_font_size (new_font_size : value) (w : world) : world :=
  let settings := get_window_settings w in
  set_window_settings (<["font_size" := new_font_size]> settings) w.

Definition erase_font_size (w : world) : world :=
  let settings := get_window_settings w in
  if settings_has settings "font_size"
  then set_window_settings (delete "font_size" settings) w
  else w.

End WindowFontSizeCommand.

Module SyntaxFontSizeCommand.

Definition settings_file (w : world) : string :=
  syntax_base w +:+ ".sublime-settings".

Definition get_font_size (w : world) : value :=
  let settings := load_settings (settings_file w) w in
  let '(default_size, _, _) := global_font_constraints w in
  settings_get settings "font_size" default_size.

Definition set_font_size (new_font_size : value) (w : world) : world :=
  save_settings (settings_file w)
    (settings_set (settings_file w) "font_size" new_font_size w).

Definition erase_font_size (w : world) : world :=
  save_settings (settings_file w)
    (settings_erase (settings_file w) "font_size" w).

End SyntaxFontSizeCommand.

Module ViewFontSizeCommand.

Definition get_font_size (w : world) : value :=
  let '(default_size, _, _) := global_font_constraints w in
  settings_get (view_settings w) "font_size" default_size.

Definition set_font_size (new_font_size : value) (w : world) : world :=
  view_set "font_size" new_font_size w.

Definition erase_font_size (w : world) : world :=
  view_erase "font_size" w.

End ViewFontSizeCommand.

(** The class of [self]; method calls on [self] dispatch on it. *)
Inductive domain : Type := Global | Window | Syntax | View.

Definition get_font_size (self : domain) : world → value :=
  match self with
  | Global => GlobalFontSizeCommand.get_font_size
  | Window => WindowFontSizeCommand.get_font_size
  | Syntax => SyntaxFontSizeCommand.get_font_size
  | View => ViewFontSizeCommand.get_font_size
  end.

Definition set_font_size (self : domain) : value → world → world :=
  match self with
  | Global => GlobalFontSizeCommand.set_font_size
  | Window => WindowFontSizeCommand.set_font_size
  | Syntax => SyntaxFontSizeCommand.set_font_size
  | View => ViewFontSizeCommand.set_font_size
  end.

Definition erase_font_size (self : domain) : world → world :=
  match self with
  | Global => GlobalFontSizeCommand.erase_font_size
  | Window => WindowFontSizeCommand.erase_font_size
  | Syntax => SyntaxFontSizeCommand.erase_font_size
  | View => ViewFontSizeCommand.erase_font_size
  end.

(** ** [BaseFontSize]: the shared arithmetic *)

Definition increase_font (self : domain) (w : world) : result world :=
  let current := get_font_size self w in
  let '(_, _, max_font) := global_font_constraints w in
  current ← as_int current;
  let current :=
    if 36 <=? current then current + 4
    else if 24 <=? current then current + 2
    else current + 1 in
  max_font ← as_int max_font;
  let current := if max_font <? current then max_font else current in
  mret (set_font_size self (VInt current) w).

Definition decrease_font (self : domain) (w : world) : result world :=
  let current := get_font_size self w in
  let '(_, min_font, _) := global_font_constraints w in
  current ← as_int current;
  let current :=
    if 40 <=? current then current - 4
    else if 26 <=? current then current - 2
    else current - 1 in
  min_font ← as_int min_font;
  let current := if current <? min_font then min_font else current in
  mret (set_font_size self (VInt current) w).

Definition reset_font (self : domain) (w : world) : result world :=
  mret (erase_font_size self w).

Definition zoom_font (self : domain) (action : value) (w : world)
  : result world :=
  if decide (action = VStr "increase") then increase_font self w
  else if decide (action = VStr "decrease") then decrease_font self w
  else if decide (action = VStr "reset") then reset_font self w
  else mret (print ("plugin_name: unknown font action '" +:+ py_str action
                    +:+ "' provided") w).

(** [run] of each command class is [zoom_font] on that class. *)
Definition run (self : domain) (action : value) (w : world) : result world :=
  zoom_font self action w.

(** ** The Zoom Engine in the words of the specification (section 4.2) *)

Definition increase_step (current : Z) : Z :=
  if decide (36 ≤ current) then 4
  else if decide (24 ≤ current) then 2
  else 1.

Definition compute_increase (current max : Z) : Z :=
  Z.min (current + increase_step current) max.

Definition decrease_step (current : Z) : Z :=
  if decide (40 ≤ current) then 4
  else if decide (26 ≤ current) then 2
  else 1.

Definition compute_decrease (current min : Z) : Z :=
  Z.max (current - decrease_step current) min.

(** The configured bounds, read off [global_font_constraints]. *)
Definition default_font (w : world) : value := (global_font_constraints w).1.1.
Definition min_font (w : world) : value := (global_font_constraints w).1.2.
Definition max_font (w : world) : value := (global_font_constraints w).2.

(** The store in which a command class keeps its ["font_size"]. *)
Definition store (self : domain) (w : world) : dict :=
  match self with
  | Global => load_settings Preferences w
  | Window => WindowFontSizeCommand.get_window_settings w
  | Syntax => load_settings (SyntaxFontSizeCommand.settings_file w) w
  | View => view_settings w
  end.

(** The value that the body of [increase_font] hands to [set_font_size],
    and the one that the body of [decrease_font] does. *)
Definition increased (current bound : Z) : Z :=
  let current :=
    if 36 <=? current then current + 4
    else if 24 <=? current then current + 2
    else current + 1 in
  if bound <? current then bound else current.

Definition decreased (current bound : Z) : Z :=
  let current :=
    if 40 <=? current then current - 4
    else if 26 <=? current then current - 2
    else current - 1 in
  if current <? bound then bound else current.

(** The three constraint keys, in the order of [defaults.items()], and
    those of them that the global preferences lack. *)
Definition constraint_names : list string :=
  ["default_font_size"; "min_font_size"; "max_font_size"].

Definition absent (w : world) : list string :=
  filter (λ name, load_settings Preferences w !! name = None) constraint_names.

(** The fallback that [plugin_loaded] holds for a constraint key. *)
Definition fallback (w : world) (name : string) : value :=
  if decide (name = "default_font_size")
  then settings_get (load_settings Preferences w) "font_size" VNone
  else if decide (name = "min_font_size") then VInt 8
  else VInt 128.

(** Worlds used to run the code on concrete inputs. *)
Definition world_of (prefs : dict) : world :=
  {| files := {[ Preferences := prefs ]}; window_project := None;
     view_settings := ∅; syntax_base := "Python"; trace := [] |}.

(** A world in which every domain holds a size of its own. *)
Definition sample_world : world :=
  {| files :=
       {[ Preferences :=
            {[ "font_size" := VInt 12; "default_font_size" := VInt 11 ]};
          "Python.sublime-settings" := {[ "font_size" := VInt 15 ]} ]};
     window_project :=
       Some {| pd_settings := Some {[ "font_size" := VInt 14 ]};
               pd_other := ∅ |};
     view_settings := {[ "font_size" := VInt 16 ]};
     syntax_base := "Python";
     trace := [] |}.

(** ** Series of commands and what they leave alone *)

(** The host runs commands one after the other, each on the world that the
    one before it left; the series is followed up to the first exception. *)
Fixpoint run_all (commands : list (domain * value)) (w : world)
  : result world :=
  match commands with
  | [] => mret w
  | (self, action) :: commands => w ← run self action w; run_all commands w
  end.

(** A value that the comparisons of the step tables accept. *)
Definition is_int (v : value) : Prop := ∃ n : Z, v = VInt n.

(** Two command classes read and write the same store: the same class, or
    the Global and the Syntax class when the syntax is itself called
    [Preferences]. *)
Definition same_store (self d : domain) (w : world) : Prop :=
  self = d
  ∨ ((self = Global ∧ d = Syntax ∨ self = Syntax ∧ d = Global)
     ∧ SyntaxFontSizeCommand.settings_file w = Preferences).

(** [w'] agrees with [w] on everything that is not a ["font_size"] entry:
    the syntax of the view, every other key of every settings file, of the
    view's settings and of the window's settings, and the entries of the
    project data beside ["settings"]. *)
Definition keeps_all_but_font_size (w w' : world) : Prop :=
  syntax_base w' = syntax_base w
  ∧ (∀ file key, key ≠ "font_size" →
       load_settings file w' !! key = load_settings file w !! key)
  ∧ (∀ key, key ≠ "font_size" →
       view_settings w' !! key = view_settings w !! key)
  ∧ (∀ key, key ≠ "font_size" →
       WindowFontSizeCommand.get_window_settings w' !! key
       = WindowFontSizeCommand.get_window_settings w !! key)
  ∧ pd_other (default empty_project_data (window_project w'))
    = pd_other (default empty_project_data (window_project w)).

(** The size by which a decrease followed by an increase misses the size it
    started from: the two step tables change tier at different sizes. *)
Definition drift (current : Z) : Z :=
  if decide (current = 25) then 1
  else if decide (current = 38 ∨ current = 39) then 2
  else 0.

(** * Properties *)

(** ** Reading the host state back *)

Section host.
Implicit Types (w : world) (file key : string) (v : value) (e : event).

Lemma load_settings_emit file e w :
  load_settings file (emit e w) = load_settings file w.
Proof. reflexivity. Qed.

Lemma load_settings_set file key v w :
  load_settings file (settings_set file key v w)
  = <[key := v]> (load_settings file w).
Proof. unfold load_settings at 1. simpl. by rewrite lookup_insert_eq. Qed.

Lemma load_settings_set_ne file file' key v w :
  file ≠ file' →
  load_settings file' (settings_set file key v w) = load_settings file' w.
Proof. intros ?. unfold load_settings. simpl. by rewrite lookup_insert_ne. Qed.

Lemma load_settings_erase file key w :
  load_settings file (settings_erase file key w)
  = delete key (load_settings file w).
Proof. unfold load_settings at 1. simpl. by rewrite lookup_insert_eq. Qed.

Lemma load_settings_erase_ne file file' key w :
  file ≠ file' →
  load_settings file' (settings_erase file key w) = load_settings file' w.
Proof. intros ?. unfold load_settings. simpl. by rewrite lookup_insert_ne. Qed.

Lemma settings_has_true (s : dict) key :
  settings_has s key = true ↔ is_Some (s !! key).
Proof. unfold settings_has. by rewrite bool_decide_eq_true. Qed.

Lemma settings_has_false (s : dict) key :
  settings_has s key = false ↔ s !! key = None.
Proof.
  unfold settings_has. rewrite bool_decide_eq_false.
  by rewrite eq_None_not_Some.
Qed.

Lemma get_set_window_settings (s : dict) w :
  WindowFontSizeCommand.get_window_settings
    (WindowFontSizeCommand.set_window_settings s w) = s.
Proof. reflexivity. Qed.

(** Writing a font size leaves the three constraints as they are, in every
    domain: the key written is ["font_size"]. *)
Lemma constraints_set_font_size self v w :
  global_font_constraints (set_font_size self v w) = global_font_constraints w.
Proof.
  unfold global_font_constraints, settings_get.
  destruct self; cbn [set_font_size]; try reflexivity.
  - unfold GlobalFontSizeCommand.set_font_size, save_settings.
    rewrite load_settings_emit, load_settings_set.
    by rewrite !lookup_insert_ne.
  - unfold SyntaxFontSizeCommand.set_font_size, save_settings.
    rewrite load_settings_emit.
    destruct (decide (SyntaxFontSizeCommand.settings_file w = Preferences))
      as [->|Hne].
    + rewrite load_settings_set. by rewrite !lookup_insert_ne.
    + by rewrite load_settings_set_ne.
Qed.

(** What was written is what is read back. *)
Lemma get_set_font_size self v w :
  get_font_size self (set_font_size self v w) = v.
Proof.
  destruct self; cbn [get_font_size set_font_size].
  - unfold GlobalFontSizeCommand.get_font_size.
    destruct (global_font_constraints _) as [[d ?] ?].
    unfold GlobalFontSizeCommand.set_font_size, save_settings, settings_get.
    rewrite load_settings_emit, load_settings_set.
    by rewrite lookup_insert_eq.
  - unfold WindowFontSizeCommand.get_font_size.
    destruct (global_font_constraints _) as [[d ?] ?].
    unfold WindowFontSizeCommand.set_font_size, settings_get.
    by rewrite get_set_window_settings, lookup_insert_eq.
  - unfold SyntaxFontSizeCommand.get_font_size.
    destruct (global_font_constraints _) as [[d ?] ?].
    unfold SyntaxFontSizeCommand.set_font_size, save_settings, settings_get.
    change (SyntaxFontSizeCommand.settings_file (emit _ _))
      with (SyntaxFontSizeCommand.settings_file w).
    rewrite load_settings_emit, load_settings_set.
    by rewrite lookup_insert_eq.
  - unfold ViewFontSizeCommand.get_font_size.
    destruct (global_font_constraints _) as [[d ?] ?].
    unfold settings_get. simpl. by rewrite lookup_insert_eq.
Qed.

End host.

(** ** The step tables *)

Section zoom_engine.
Implicit Types (self : domain) (w : world) (current bound : Z).

Lemma increase_font_int self w current bound :
  get_font_size self w = VInt current →
  max_font w = VInt bound →
  increase_font self w
  = Ok (set_font_size self (VInt (increased current bound)) w).
Proof.
  unfold increase_font, max_font. intros -> Hmax.
  destruct (global_font_constraints w) as [[? ?] mx].
  simpl in Hmax. by subst mx.
Qed.

Lemma decrease_font_int self w current bound :
  get_font_size self w = VInt current →
  min_font w = VInt bound →
  decrease_font self w
  = Ok (set_font_size self (VInt (decreased current bound)) w).
Proof.
  unfold decrease_font, min_font. intros -> Hmin.
  destruct (global_font_constraints w) as [[? mn] ?].
  simpl in Hmin. by subst mn.
Qed.

Lemma increased_compute current bound :
  increased current bound = compute_increase current bound.
Proof.
  unfold increased, compute_increase, increase_step.
  repeat case_decide;
    repeat match goal with
           | |- context [?a <=? ?b] => destruct (Z.leb_spec a b)
           | |- context [?a <? ?b] => destruct (Z.ltb_spec a b)
           end; lia.
Qed.

Lemma decreased_compute current bound :
  decreased current bound = compute_decrease current bound.
Proof.
  unfold decreased, compute_decrease, decrease_step.
  repeat case_decide;
    repeat match goal with
           | |- context [?a <=? ?b] => destruct (Z.leb_spec a b)
           | |- context [?a <? ?b] => destruct (Z.ltb_spec a b)
           end; lia.
Qed.

End zoom_engine.

(** Section 8 of the specification, run on the code: from 20 the global
    size goes to 21, from 36 to 40, and from 126 to 128 rather than 130. *)
Example adjust_global_increase :
  (w ← run Global (VStr "increase") (world_of {[ "font_size" := VInt 20 ]});
   mret (get_font_size Global w)) = Ok (VInt 21)
  ∧ (w ← run Global (VStr "increase") (world_of {[ "font_size" := VInt 36 ]});
     mret (get_font_size Global w)) = Ok (VInt 40)
  ∧ (w ← run Global (VStr "increase")
           (world_of {[ "font_size" := VInt 126; "max_font_size" := VInt 128 ]});
     mret (get_font_size Global w)) = Ok (VInt 128).
Proof. repeat split; vm_compute; reflexivity. Qed.

(** A window without settings gets [{"font_size": default + 1}]. *)
Example adjust_window_increase :
  (w ← run Window (VStr "increase")
         (world_of {[ "default_font_size" := VInt 11 ]});
   mret (window_project w))
  = Ok (Some {| pd_settings := Some {[ "font_size" := VInt 12 ]};
                pd_other := ∅ |}).
Proof. vm_compute. reflexivity. Qed.

(** A size that is not a number makes the comparison raise. *)
Example increase_font_none :
  run Global (VStr "increase") (world_of {[ "font_size" := VNone ]})
  = Raise TypeError.
Proof. vm_compute. reflexivity. Qed.

(** ** Increase and decrease *)

(** C1: whatever the class of the command, when the current size and the
    configured maximum are integers, [increase_font] adds 4 from 36 on, 2
    from 24 on and 1 below, clamps the sum to the maximum, and hands that
    value, [min (current + step) max], to [set_font_size]; reading the size
    back gives it. *)
Theorem increase_font_compute_increase
    (self : domain) (w : world) (current max : Z)
    (Hcurrent : get_font_size self w = VInt current)
    (Hmax : max_font w = VInt max) :
  let step := if decide (36 ≤ current) then 4
              else if decide (24 ≤ current) then 2 else 1 in
  let new_value := Z.min (current + step) max in
  new_value = compute_increase current max
  ∧ increase_font self w = Ok (set_font_size self (VInt new_value) w)
  ∧ get_font_size self (set_font_size self (VInt new_value) w) = VInt new_value.
Proof.
  intros step new_value. split; [reflexivity|]. split.
  - rewrite (increase_font_int self w current max Hcurrent Hmax).
    by rewrite increased_compute.
  - apply get_set_font_size.
Qed.

Lemma increase_font_compute_increase_witness :
  let w := world_of {[ "font_size" := VInt 35 ]} in
  get_font_size Global w = VInt 35
  ∧ max_font w = VInt 128
  ∧ increase_font Global w = Ok (set_font_size Global (VInt 37) w).
Proof.
  intros w. split; [reflexivity|]. split; [reflexivity|].
  exact (proj1 (proj2
    (increase_font_compute_increase Global w 35 128 eq_refl eq_refl))).
Defined.

(** C2: symmetrically, [decrease_font] subtracts 4 from 40 on, 2 from 26 on
    and 1 below, clamps the difference to the minimum, and hands
    [max (current - step) min] to [set_font_size]; with a minimum of at most
    24, 40 goes to 36, 26 to 24 and 25 to 24. *)
Theorem decrease_font_compute_decrease
    (self : domain) (w : world) (current min : Z)
    (Hcurrent : get_font_size self w = VInt current)
    (Hmin : min_font w = VInt min) :
  let step := if decide (40 ≤ current) then 4
              else if decide (26 ≤ current) then 2 else 1 in
  let new_value := Z.max (current - step) min in
  new_value = compute_decrease current min
  ∧ decrease_font self w = Ok (set_font_size self (VInt new_value) w)
  ∧ get_font_size self (set_font_size self (VInt new_value) w) = VInt new_value
  ∧ (min ≤ 24 →
     (current = 40 → new_value = 36) ∧ (current = 26 → new_value = 24)
     ∧ (current = 25 → new_value = 24)).
Proof.
  intros step new_value. split; [reflexivity|]. split; [|split].
  - rewrite (decrease_font_int self w current min Hcurrent Hmin).
    by rewrite decreased_compute.
  - apply get_set_font_size.
  - intros Hle. subst new_value step.
    repeat split; intros ->; repeat case_decide; lia.
Qed.

Lemma decrease_font_compute_decrease_witness :
  let w := world_of {[ "font_size" := VInt 40 ]} in
  get_font_size Global w = VInt 40
  ∧ min_font w = VInt 8
  ∧ decrease_font Global w = Ok (set_font_size Global (VInt 36) w).
Proof.
  intros w. split; [reflexivity|]. split; [reflexivity|].
  exact (proj1 (proj2
    (decrease_font_compute_decrease Global w 40 8 eq_refl eq_refl))).
Defined.

(** C3: with the minimum 8 and the maximum 128 configured, a single
    increase from a size between 8 and 128 writes a size that is at most 128
    and at least the size it started from. *)
Theorem increase_font_bounded
    (self : domain) (w : world) (current : Z)
    (Hcurrent : get_font_size self w = VInt current)
    (Hmin : min_font w = VInt 8)
    (Hmax : max_font w = VInt 128)
    (Hrange : 8 ≤ current ≤ 128) :
  ∃ (w' : world) (new_value : Z),
    increase_font self w = Ok w'
    ∧ get_font_size self w' = VInt new_value
    ∧ current ≤ new_value ≤ 128.
Proof.
  exists (set_font_size self (VInt (increased current 128)) w),
         (increased current 128).
  split; [by apply increase_font_int|]. split; [apply get_set_font_size|].
  rewrite increased_compute. unfold compute_increase, increase_step.
  repeat case_decide; lia.
Qed.

Lemma increase_font_bounded_witness :
  let w := world_of {[ "font_size" := VInt 125 ]} in
  (get_font_size Global w = VInt 125 ∧ min_font w = VInt 8
   ∧ max_font w = VInt 128 ∧ 8 ≤ 125 ≤ 128)
  ∧ ∃ (w' : world) (new_value : Z),
      increase_font Global w = Ok w'
      ∧ get_font_size Global w' = VInt new_value
      ∧ 125 ≤ new_value ≤ 128.
Proof.
  intros w. split; [repeat split; lia|].
  apply (increase_font_bounded Global w 125); [reflexivity..|lia].
Defined.

(** The clamp of section 8: from 125 the tier of 36 and above adds 4, and
    129 is cut to the maximum 128. *)
Example increase_font_125 :
  increase_font Global (world_of {[ "font_size" := VInt 125 ]})
  = Ok (set_font_size Global (VInt 128)
          (world_of {[ "font_size" := VInt 125 ]})).
Proof. reflexivity. Qed.

(** C10: a size above the configured maximum is written back as the
    maximum by an increase, and a size below the configured minimum is
    written back as the minimum by a decrease. *)
Theorem out_of_range_pulled_to_bound
    (self : domain) (w : world) (current bound : Z)
    (Hcurrent : get_font_size self w = VInt current) :
  (max_font w = VInt bound → bound < current →
   increase_font self w = Ok (set_font_size self (VInt bound) w)
   ∧ get_font_size self (set_font_size self (VInt bound) w) = VInt bound)
  ∧ (min_font w = VInt bound → current < bound →
     decrease_font self w = Ok (set_font_size self (VInt bound) w)
     ∧ get_font_size self (set_font_size self (VInt bound) w) = VInt bound).
Proof.
  split; intros Hbound Hlt; (split; [|apply get_set_font_size]).
  - rewrite (increase_font_int self w current bound Hcurrent Hbound).
    do 3 f_equal. rewrite increased_compute.
    unfold compute_increase, increase_step. repeat case_decide; lia.
  - rewrite (decrease_font_int self w current bound Hcurrent Hbound).
    do 3 f_equal. rewrite decreased_compute.
    unfold compute_decrease, decrease_step. repeat case_decide; lia.
Qed.

Lemma out_of_range_pulled_to_bound_witness :
  let hi := world_of {[ "font_size" := VInt 200 ]} in
  let lo := world_of {[ "font_size" := VInt 5 ]} in
  (get_font_size Global hi = VInt 200 ∧ max_font hi = VInt 128 ∧ 128 < 200
   ∧ increase_font Global hi = Ok (set_font_size Global (VInt 128) hi))
  ∧ (get_font_size Global lo = VInt 5 ∧ min_font lo = VInt 8 ∧ 5 < 8
     ∧ decrease_font Global lo = Ok (set_font_size Global (VInt 8) lo)).
Proof.
  intros hi lo. split.
  - do 3 (split; [done|]).
    apply (out_of_range_pulled_to_bound Global hi 200 128 eq_refl);
      [reflexivity|lia].
  - do 3 (split; [done|]).
    apply (out_of_range_pulled_to_bound Global lo 5 8 eq_refl);
      [reflexivity|lia].
Defined.

(** ** Dispatch *)

(** C4: an action other than "increase", "decrease" and "reset" is not an
    error: [zoom_font] returns normally, every store of every domain is
    left as it was, and so is every font size read from them; the one call
    made into the host is the [print] of the diagnostic line. *)
Theorem zoom_font_unknown_action
    (self : domain) (action : value) (w : world)
    (Hincrease : action ≠ VStr "increase")
    (Hdecrease : action ≠ VStr "decrease")
    (Hreset : action ≠ VStr "reset") :
  ∃ w' : world,
    zoom_font self action w = Ok w'
    ∧ files w' = files w
    ∧ window_project w' = window_project w
    ∧ view_settings w' = view_settings w
    ∧ (∀ d : domain, store d w' = store d w
                     ∧ get_font_size d w' = get_font_size d w)
    ∧ trace w' = (trace w ++ [Print ("plugin_name: unknown font action '"
                                     +:+ py_str action +:+ "' provided")])%list.
Proof.
  unfold zoom_font. repeat case_decide; try congruence.
  eexists. split; [reflexivity|].
  repeat split; by destruct d.
Qed.

Lemma zoom_font_unknown_action_witness :
  let w := world_of {[ "font_size" := VInt 12 ]} in
  (VStr "bigger" ≠ VStr "increase" ∧ VStr "bigger" ≠ VStr "decrease"
   ∧ VStr "bigger" ≠ VStr "reset")
  ∧ ∃ w' : world,
      zoom_font View (VStr "bigger") w = Ok w'
      ∧ files w' = files w
      ∧ window_project w' = window_project w
      ∧ view_settings w' = view_settings w
      ∧ (∀ d : domain, store d w' = store d w
                       ∧ get_font_size d w' = get_font_size d w)
      ∧ trace w' = (trace w ++ [Print ("plugin_name: unknown font action '"
                                       +:+ py_str (VStr "bigger")
                                       +:+ "' provided")])%list.
Proof.
  intros w.
  assert (H1 : VStr "bigger" ≠ VStr "increase") by discriminate.
  assert (H2 : VStr "bigger" ≠ VStr "decrease") by discriminate.
  assert (H3 : VStr "bigger" ≠ VStr "reset") by discriminate.
  split; [by repeat split|].
  exact (zoom_font_unknown_action View (VStr "bigger") w H1 H2 H3).
Defined.

(** An action that is not even a string is reported the same way. *)
Example zoom_font_action_none :
  (w ← zoom_font Global VNone (world_of ∅); mret (trace w))
  = Ok [Print "plugin_name: unknown font action 'None' provided"].
Proof. reflexivity. Qed.

(** ** Reset *)

(** C5: in the Window, Syntax and View domains, once [erase_font_size] has
    run the domain's store has no ["font_size"] key, and [get_font_size]
    returns the default resolved from the global constraints, which the
    erasure has not touched. *)
Theorem erase_font_size_key_absent
    (self : domain) (w : world) (Hself : self ≠ Global) :
  let w' := erase_font_size self w in
  store self w' !! "font_size" = None
  ∧ get_font_size self w' = default_font w'
  ∧ default_font w' = default_font w.
Proof.
  destruct self; [done|..]; clear Hself; cbn zeta.
  - (* Window *)
    assert (Habs : store Window (erase_font_size Window w) !! "font_size"
                   = None).
    { simpl. unfold WindowFontSizeCommand.erase_font_size.
      destruct (settings_has _ _) eqn:Hhas.
      - rewrite get_set_window_settings. apply lookup_delete_eq.
      - by apply settings_has_false. }
    split; [exact Habs|]. split.
    + simpl in *. unfold WindowFontSizeCommand.get_font_size, default_font.
      destruct (global_font_constraints _) as [[d ?] ?].
      unfold settings_get. by rewrite Habs.
    + simpl. unfold WindowFontSizeCommand.erase_font_size.
      by destruct (settings_has _ _).
  - (* Syntax *)
    assert (Hload : load_settings (SyntaxFontSizeCommand.settings_file w)
                      (erase_font_size Syntax w)
                    = delete "font_size"
                        (load_settings (SyntaxFontSizeCommand.settings_file w)
                           w)).
    { simpl. unfold SyntaxFontSizeCommand.erase_font_size, save_settings.
      by rewrite load_settings_emit, load_settings_erase. }
    assert (Habs : store Syntax (erase_font_size Syntax w) !! "font_size"
                   = None).
    { unfold store.
      change (SyntaxFontSizeCommand.settings_file (erase_font_size Syntax w))
        with (SyntaxFontSizeCommand.settings_file w).
      rewrite Hload. apply lookup_delete_eq. }
    split; [exact Habs|]. split.
    + simpl in *. unfold SyntaxFontSizeCommand.get_font_size, default_font.
      destruct (global_font_constraints _) as [[d ?] ?].
      unfold settings_get. by rewrite Habs.
    + unfold default_font, global_font_constraints, settings_get.
      destruct (decide (SyntaxFontSizeCommand.settings_file w = Preferences))
        as [Heq|Hne].
      * rewrite <- Heq, Hload. by rewrite lookup_delete_ne.
      * cbn [erase_font_size].
        unfold SyntaxFontSizeCommand.erase_font_size, save_settings.
        by rewrite load_settings_emit, load_settings_erase_ne.
  - (* View *)
    assert (Habs : store View (erase_font_size View w) !! "font_size" = None).
    { simpl. apply lookup_delete_eq. }
    split; [exact Habs|]. split; [|reflexivity].
    cbn [get_font_size store] in *.
    unfold ViewFontSizeCommand.get_font_size, default_font.
    destruct (global_font_constraints _) as [[d ?] ?].
    unfold settings_get. by rewrite Habs.
Qed.

Lemma erase_font_size_key_absent_witness :
  (Window ≠ Global ∧ Syntax ≠ Global ∧ View ≠ Global)
  ∧ (get_font_size Window sample_world = VInt 14
     ∧ get_font_size Window (erase_font_size Window sample_world) = VInt 11)
  ∧ (get_font_size Syntax sample_world = VInt 15
     ∧ get_font_size Syntax (erase_font_size Syntax sample_world) = VInt 11)
  ∧ (get_font_size View sample_world = VInt 16
     ∧ get_font_size View (erase_font_size View sample_world) = VInt 11).
Proof.
  assert (HW : Window ≠ Global) by discriminate.
  assert (HS : Syntax ≠ Global) by discriminate.
  assert (HV : View ≠ Global) by discriminate.
  split; [by repeat split|].
  split; [|split]; (split; [reflexivity|]).
  - destruct (erase_font_size_key_absent Window sample_world HW)
      as (_ & -> & ->). reflexivity.
  - destruct (erase_font_size_key_absent Syntax sample_world HS)
      as (_ & -> & ->). reflexivity.
  - destruct (erase_font_size_key_absent View sample_world HV)
      as (_ & -> & ->). reflexivity.
Defined.

(** The Global domain differs: its reset stores the default under the key
    instead of removing the key. *)
Example global_erase_keeps_key :
  store Global (erase_font_size Global sample_world) !! "font_size"
  = Some (VInt 11).
Proof. reflexivity. Qed.

(** C6: Global reset is idempotent.  From any world a reset succeeds and
    stores the resolved default under ["font_size"]; a second reset
    succeeds too and leaves every settings store, hence the stored font
    size, as the first one left it. *)
Theorem global_reset_idempotent (w : world) :
  ∃ w1 w2 : world,
    run Global (VStr "reset") w = Ok w1
    ∧ run Global (VStr "reset") w1 = Ok w2
    ∧ store Global w1 !! "font_size" = Some (default_font w)
    ∧ store Global w2 !! "font_size" = store Global w1 !! "font_size"
    ∧ default_font w1 = default_font w
    ∧ default_font w2 = default_font w
    ∧ files w2 = files w1.
Proof.
  exists (erase_font_size Global w),
         (erase_font_size Global (erase_font_size Global w)).
  split; [reflexivity|]. split; [reflexivity|].
  assert (Hdef : ∀ w0, default_font (erase_font_size Global w0)
                       = default_font w0).
  { intros w0. unfold default_font. cbn [erase_font_size].
    unfold GlobalFontSizeCommand.erase_font_size.
    destruct (global_font_constraints w0) as [[d mn] mx] eqn:Hc.
    change (GlobalFontSizeCommand.set_font_size d w0)
      with (set_font_size Global d w0).
    by rewrite constraints_set_font_size, Hc. }
  assert (Hst : ∀ w0, load_settings Preferences (erase_font_size Global w0)
                      = <["font_size" := default_font w0]>
                          (load_settings Preferences w0)).
  { intros w0. unfold default_font. cbn [erase_font_size].
    unfold GlobalFontSizeCommand.erase_font_size.
    destruct (global_font_constraints w0) as [[d mn] mx].
    unfold GlobalFontSizeCommand.set_font_size, save_settings.
    by rewrite load_settings_emit, load_settings_set. }
  assert (Hfiles : ∀ w0, files (erase_font_size Global w0)
                         = <[Preferences :=
                               load_settings Preferences
                                 (erase_font_size Global w0)]> (files w0)).
  { intros w0. rewrite Hst. unfold default_font. cbn [erase_font_size].
    unfold GlobalFontSizeCommand.erase_font_size.
    by destruct (global_font_constraints w0) as [[d mn] mx]. }
  cbn [store]. rewrite !Hdef. repeat split.
  - by rewrite Hst, lookup_insert_eq.
  - by rewrite !Hst, Hdef, insert_insert_eq.
  - rewrite (Hfiles (erase_font_size Global w)), (Hfiles w).
    rewrite insert_insert_eq. f_equal.
    by rewrite !Hst, Hdef, insert_insert_eq.
Qed.

(** ** First run *)

Section first_run.
Implicit Types (w : world) (name key : string) (v : value).

Lemma has_after_set name key v w :
  key ≠ name →
  settings_has (load_settings Preferences
                  (settings_set Preferences key v w)) name
  = settings_has (load_settings Preferences w) name.
Proof.
  intros Hne. unfold settings_has.
  by rewrite load_settings_set, lookup_insert_ne.
Qed.

(** The loop of [plugin_loaded], unrolled over its three items. *)
Lemma plugin_loaded_unfold w :
  let s := load_settings Preferences w in
  let b1 := settings_has s "default_font_size" in
  let b2 := settings_has s "min_font_size" in
  let b3 := settings_has s "max_font_size" in
  let w1 := if b1 then w
            else settings_set Preferences "default_font_size"
                   (settings_get s "font_size" VNone) w in
  let w2 := if b2 then w1
            else settings_set Preferences "min_font_size" (VInt 8) w1 in
  let w3 := if b3 then w2
            else settings_set Preferences "max_font_size" (VInt 128) w2 in
  plugin_loaded w = if b1 && b2 && b3 then w3
                    else save_settings Preferences w3.
Proof.
  intros s b1 b2 b3 w1 w2 w3. subst w1 w2 w3.
  unfold plugin_loaded. cbn [foldl]. unfold seed_default. fold s. fold b1.
  destruct b1 eqn:E1; rewrite ?has_after_set by done; fold s; fold b2;
    destruct b2 eqn:E2; rewrite ?has_after_set by done; fold s; fold b3;
    by destruct b3 eqn:E3.
Qed.

Lemma absent_unfold w :
  let s := load_settings Preferences w in
  absent w
  = ((if settings_has s "default_font_size" then []
      else ["default_font_size"])
     ++ (if settings_has s "min_font_size" then [] else ["min_font_size"])
     ++ (if settings_has s "max_font_size" then [] else ["max_font_size"])
    )%list.
Proof.
  intros s. unfold absent, constraint_names. fold s.
  rewrite !filter_cons, filter_nil.
  repeat match goal with
         | |- context [settings_has s ?k] =>
             let E := fresh in
             destruct (settings_has s k) eqn:E;
             [apply settings_has_true in E as [? E]
             |apply settings_has_false in E]
         end;
    repeat case_decide; simplify_eq; done.
Qed.

Lemma union_insert_shadowed (s m : dict) key v :
  is_Some (s !! key) → s ∪ <[key := v]> m = s ∪ m.
Proof.
  intros [x Hx]. apply map_eq. intros i. rewrite !lookup_union.
  destruct (decide (i = key)) as [->|Hne].
  - rewrite Hx, lookup_insert_eq. by destruct (m !! key).
  - by rewrite lookup_insert_ne.
Qed.

(** The loop over any list of defaults: the store ends up as the old one
    completed, from the left, by the defaults. *)
Lemma seed_loop_store (defaults : list (string * value)) w (updated : bool) :
  load_settings Preferences (foldl seed_default (w, updated) defaults).1
  = load_settings Preferences w ∪ list_to_map defaults.
Proof.
  revert w updated.
  induction defaults as [|[name dflt] defaults IH]; intros w updated.
  - cbn. by rewrite (right_id_L ∅ (∪)).
  - cbn [foldl list_to_map foldr]. unfold seed_default at 2.
    destruct (settings_has _ name) eqn:Hhas; rewrite IH.
    + apply settings_has_true in Hhas. by rewrite union_insert_shadowed.
    + apply settings_has_false in Hhas.
      rewrite load_settings_set.
      by rewrite <- insert_union_l, insert_union_r.
Qed.

Lemma plugin_loaded_store w :
  let s := load_settings Preferences w in
  load_settings Preferences (plugin_loaded w)
  = s ∪ {[ "default_font_size" := settings_get s "font_size" VNone;
           "min_font_size" := VInt 8;
           "max_font_size" := VInt 128 ]}.
Proof.
  intros s. unfold plugin_loaded. fold s.
  match goal with
  | |- context [foldl seed_default ?st ?l] =>
      pose proof (seed_loop_store l w false) as Hloop;
      destruct (foldl seed_default st l) as [w1 updated]
  end.
  fold s in Hloop. cbn [fst] in Hloop.
  destruct updated; unfold save_settings;
    rewrite ?load_settings_emit, Hloop; cbn [list_to_map foldr];
    by rewrite insert_empty.
Qed.

Lemma plugin_loaded_has w name :
  name ∈ constraint_names →
  settings_has (load_settings Preferences (plugin_loaded w)) name = true.
Proof.
  intros Hin. apply settings_has_true. rewrite plugin_loaded_store.
  apply lookup_union_is_Some. right.
  unfold constraint_names in Hin.
  repeat (apply elem_of_cons in Hin as [->|Hin]);
    [by eexists..|by apply elem_of_nil in Hin].
Qed.

End first_run.

(** C7: [plugin_loaded] leaves every key that the global preferences
    already hold with the value it had, so that a second run changes
    nothing and calls nothing; the calls of one run are one [set] for each
    absent constraint key, followed by one [save_settings] when there was
    such a key and by nothing when there was none. *)
Theorem plugin_loaded_idempotent (w : world) :
  let s := load_settings Preferences w in
  let w' := plugin_loaded w in
  (∀ name v, s !! name = Some v →
             load_settings Preferences w' !! name = Some v)
  ∧ plugin_loaded w' = w'
  ∧ trace w'
    = (trace w
       ++ map (λ name, SettingsSet Preferences name (fallback w name))
              (absent w)
       ++ (if decide (absent w = []) then []
           else [SaveSettings Preferences]))%list.
Proof.
  intros s w'. split; [|split].
  - intros name v Hs. subst w'. rewrite plugin_loaded_store.
    by apply lookup_union_Some_l.
  - rewrite (plugin_loaded_unfold w'). subst w'.
    rewrite !plugin_loaded_has; [done|unfold constraint_names; set_solver..].
  - subst w'. rewrite plugin_loaded_unfold, absent_unfold. fold s.
    destruct (settings_has s "default_font_size"),
             (settings_has s "min_font_size"),
             (settings_has s "max_font_size");
      cbn; rewrite <- ?(assoc_L (++)); try reflexivity.
    rewrite decide_True by done. by rewrite (right_id_L [] (++)).
Qed.

(** A first run on preferences that only have a font size seeds the three
    keys and saves once; the run after it adds no call. *)
Example plugin_loaded_twice :
  let w := world_of {[ "font_size" := VInt 12 ]} in
  trace (plugin_loaded w)
  = [ SettingsSet Preferences "default_font_size" (VInt 12);
      SettingsSet Preferences "min_font_size" (VInt 8);
      SettingsSet Preferences "max_font_size" (VInt 128);
      SaveSettings Preferences ]
  ∧ trace (plugin_loaded (plugin_loaded w)) = trace (plugin_loaded w).
Proof. split; vm_compute; reflexivity. Qed.

(** C8: a constraint key that the global preferences lack at load time is
    seeded: ["default_font_size"] with what [settings.get('font_size')]
    returns at that time, ["min_font_size"] with 8 and ["max_font_size"]
    with 128. *)
Theorem plugin_loaded_seeds (w : world) :
  let s := load_settings Preferences w in
  let w' := plugin_loaded w in
  (s !! "default_font_size" = None →
   load_settings Preferences w' !! "default_font_size"
   = Some (settings_get s "font_size" VNone))
  ∧ (s !! "min_font_size" = None →
     load_settings Preferences w' !! "min_font_size" = Some (VInt 8))
  ∧ (s !! "max_font_size" = None →
     load_settings Preferences w' !! "max_font_size" = Some (VInt 128)).
Proof.
  intros s w'. subst w'. rewrite plugin_loaded_store. fold s.
  repeat split; intros Habs; by rewrite lookup_union_r.
Qed.

Lemma plugin_loaded_seeds_witness :
  let w := world_of {[ "font_size" := VInt 12; "min_font_size" := VInt 6 ]} in
  let s := load_settings Preferences w in
  let w' := plugin_loaded w in
  (s !! "default_font_size" = None ∧ s !! "max_font_size" = None)
  ∧ load_settings Preferences w' !! "default_font_size" = Some (VInt 12)
  ∧ load_settings Preferences w' !! "min_font_size" = Some (VInt 6)
  ∧ load_settings Preferences w' !! "max_font_size" = Some (VInt 128).
Proof.
  intros w s w'.
  destruct (plugin_loaded_seeds w) as (Hdefault & _ & Hmax).
  split; [split; reflexivity|].
  split; [exact (Hdefault eq_refl)|].
  split; [reflexivity|exact (Hmax eq_refl)].
Defined.

(** ** The command rewriter *)

(** C9: [on_window_command] answers the three host commands with
    [global_font_size] and the action "increase", "decrease" and "reset",
    and returns [None] for every other command name, and only for those. *)
Theorem on_window_command_table (command : string) (args : dict) :
  on_window_command "increase_font_size" args
  = Some ("global_font_size", {[ "action" := VStr "increase" ]})
  ∧ on_window_command "decrease_font_size" args
    = Some ("global_font_size", {[ "action" := VStr "decrease" ]})
  ∧ on_window_command "reset_font_size" args
    = Some ("global_font_size", {[ "action" := VStr "reset" ]})
  ∧ (on_window_command command args = None
     ↔ command ∉ ["increase_font_size"; "decrease_font_size";
                  "reset_font_size"]).
Proof.
  repeat split; try reflexivity.
  - unfold on_window_command. repeat case_decide; try discriminate.
    intros _ Hin. rewrite !elem_of_cons, elem_of_nil in Hin. tauto.
  - unfold on_window_command. intros Hnot.
    repeat case_decide; try reflexivity;
      exfalso; apply Hnot; rewrite !elem_of_cons; tauto.
Qed.

(** * More of the plugin's behaviour *)

(** ** What a command leaves alone *)

Section frame.
Implicit Types (self d : domain) (w : world) (v action : value).

(** Where [get_font_size] finds its answer: the domain's own store, else
    the configured default, else 10. *)
Lemma get_font_size_store self w :
  get_font_size self w = default (default_font w) (store self w !! "font_size").
Proof.
  unfold default_font.
  destruct self; cbn [get_font_size store];
    [unfold GlobalFontSizeCommand.get_font_size
    |unfold WindowFontSizeCommand.get_font_size
    |unfold SyntaxFontSizeCommand.get_font_size
    |unfold ViewFontSizeCommand.get_font_size];
    by destruct (global_font_constraints w) as [[? ?] ?].
Qed.

Lemma increase_font_Ok self w w' :
  increase_font self w = Ok w' →
  ∃ current bound, get_font_size self w = VInt current
    ∧ max_font w = VInt bound
    ∧ w' = set_font_size self (VInt (increased current bound)) w.
Proof.
  unfold increase_font, max_font.
  destruct (global_font_constraints w) as [[? ?] mx].
  destruct (get_font_size self w) as [|current|]; [done| |done].
  destruct mx as [|bound|]; [done| |done].
  intros [= <-]. by exists current, bound.
Qed.

Lemma decrease_font_Ok self w w' :
  decrease_font self w = Ok w' →
  ∃ current bound, get_font_size self w = VInt current
    ∧ min_font w = VInt bound
    ∧ w' = set_font_size self (VInt (decreased current bound)) w.
Proof.
  unfold decrease_font, min_font.
  destruct (global_font_constraints w) as [[? mn] ?].
  destruct (get_font_size self w) as [|current|]; [done| |done].
  destruct mn as [|bound|]; [done| |done].
  intros [= <-]. by exists current, bound.
Qed.

(** The four ways in which [zoom_font] returns normally. *)
Lemma zoom_font_Ok self action w w' :
  zoom_font self action w = Ok w' →
  (action = VStr "increase"
   ∧ ∃ current bound, get_font_size self w = VInt current
       ∧ max_font w = VInt bound
       ∧ w' = set_font_size self (VInt (increased current bound)) w)
  ∨ (action = VStr "decrease"
     ∧ ∃ current bound, get_font_size self w = VInt current
         ∧ min_font w = VInt bound
         ∧ w' = set_font_size self (VInt (decreased current bound)) w)
  ∨ (action = VStr "reset" ∧ w' = erase_font_size self w)
  ∨ (action ≠ VStr "increase" ∧ action ≠ VStr "decrease"
     ∧ action ≠ VStr "reset"
     ∧ w' = print ("plugin_name: unknown font action '" +:+ py_str action
                   +:+ "' provided") w).
Proof.
  unfold zoom_font. repeat case_decide; subst.
  - intros Hrun. left. split; [done|]. by apply increase_font_Ok.
  - intros Hrun. right. left. split; [done|]. by apply decrease_font_Ok.
  - intros [= <-]. right. right. by left.
  - intros [= <-]. by repeat right.
Qed.

Lemma keeps_refl w : keeps_all_but_font_size w w.
Proof. by repeat split. Qed.

Lemma keeps_trans w1 w2 w3 :
  keeps_all_but_font_size w1 w2 → keeps_all_but_font_size w2 w3 →
  keeps_all_but_font_size w1 w3.
Proof.
  intros (Hs & Hf & Hv & Hw & Hp) (Hs' & Hf' & Hv' & Hw' & Hp').
  split; [congruence|]. split; [|split; [|split]].
  - intros file key Hk. by rewrite Hf', Hf.
  - intros key Hk. by rewrite Hv', Hv.
  - intros key Hk. by rewrite Hw', Hw.
  - congruence.
Qed.

Lemma keeps_set_font_size self v w :
  keeps_all_but_font_size w (set_font_size self v w).
Proof.
  destruct self; cbn [set_font_size].
  - split; [done|]. split; [|by repeat split].
    intros file key Hk.
    unfold GlobalFontSizeCommand.set_font_size, save_settings.
    rewrite load_settings_emit.
    destruct (decide (Preferences = file)) as [<-|Hne].
    + by rewrite load_settings_set, lookup_insert_ne.
    + by rewrite load_settings_set_ne.
  - split; [done|]. split; [done|]. split; [done|]. split; [|done].
    intros key Hk. unfold WindowFontSizeCommand.set_font_size.
    by rewrite get_set_window_settings, lookup_insert_ne.
  - split; [done|]. split; [|by repeat split].
    intros file key Hk.
    unfold SyntaxFontSizeCommand.set_font_size, save_settings.
    rewrite load_settings_emit.
    destruct (decide (SyntaxFontSizeCommand.settings_file w = file))
      as [<-|Hne].
    + by rewrite load_settings_set, lookup_insert_ne.
    + by rewrite load_settings_set_ne.
  - split; [done|]. split; [done|]. split; [|by repeat split].
    intros key Hk. simpl. by rewrite lookup_insert_ne.
Qed.

Lemma keeps_erase_font_size self w :
  keeps_all_but_font_size w (erase_font_size self w).
Proof.
  destruct self; cbn [erase_font_size].
  - unfold GlobalFontSizeCommand.erase_font_size.
    destruct (global_font_constraints w) as [[d ?] ?].
    apply (keeps_set_font_size Global).
  - unfold WindowFontSizeCommand.erase_font_size.
    destruct (settings_has _ _); [|apply keeps_refl].
    split; [done|]. split; [done|]. split; [done|]. split; [|done].
    intros key Hk. by rewrite get_set_window_settings, lookup_delete_ne.
  - split; [done|]. split; [|by repeat split].
    intros file key Hk.
    unfold SyntaxFontSizeCommand.erase_font_size, save_settings.
    rewrite load_settings_emit.
    destruct (decide (SyntaxFontSizeCommand.settings_file w = file))
      as [<-|Hne].
    + by rewrite load_settings_erase, lookup_delete_ne.
    + by rewrite load_settings_erase_ne.
  - split; [done|]. split; [done|]. split; [|by repeat split].
    intros key Hk. simpl. by rewrite lookup_delete_ne.
Qed.

Lemma keeps_zoom_font self action w w' :
  zoom_font self action w = Ok w' → keeps_all_but_font_size w w'.
Proof.
  intros H. apply zoom_font_Ok in H
    as [(_ & ? & ? & _ & _ & ->)|[(_ & ? & ? & _ & _ & ->)
       |[(_ & ->)|(_ & _ & _ & ->)]]].
  - apply keeps_set_font_size.
  - apply keeps_set_font_size.
  - apply keeps_erase_font_size.
  - by repeat split.
Qed.

Lemma keeps_constraints w w' :
  keeps_all_but_font_size w w' →
  global_font_constraints w' = global_font_constraints w.
Proof.
  intros (_ & Hf & _). unfold global_font_constraints, settings_get.
  by rewrite !Hf.
Qed.

Lemma keeps_run_all commands w w' :
  run_all commands w = Ok w' → keeps_all_but_font_size w w'.
Proof.
  revert w. induction commands as [|[self action] commands IH]; intros w.
  - intros [= <-]. apply keeps_refl.
  - cbn [run_all]. unfold run.
    destruct (zoom_font self action w) as [w1|] eqn:H1; [|done].
    intros H. eapply keeps_trans; [by eapply keeps_zoom_font|by apply IH].
Qed.

End frame.

(** X1: whatever commands are run, in whatever domains, a run that returns
    normally has changed nothing but ["font_size"] entries; in particular
    the configured default, minimum and maximum are what they were. *)
Theorem run_all_frame
    (commands : list (domain * value)) (w w' : world)
    (Hrun : run_all commands w = Ok w') :
  keeps_all_but_font_size w w'
  ∧ global_font_constraints w' = global_font_constraints w.
Proof.
  pose proof (keeps_run_all commands w w' Hrun) as Hkeeps.
  split; [exact Hkeeps|by apply keeps_constraints].
Qed.

Lemma run_all_frame_witness :
  ∃ w' : world,
    run_all [(View, VStr "increase"); (Global, VStr "reset");
             (Window, VStr "decrease")] sample_world = Ok w'
    ∧ global_font_constraints w' = global_font_constraints sample_world.
Proof.
  destruct (run_all [(View, VStr "increase"); (Global, VStr "reset");
                     (Window, VStr "decrease")] sample_world)
    as [w'|] eqn:Hrun; [|by vm_compute in Hrun].
  exists w'. split; [reflexivity|].
  exact (proj2 (run_all_frame _ sample_world w' Hrun)).
Defined.

Section isolation.
Implicit Types (self d : domain) (w : world) (v action : value).

Lemma not_same_store_file self d w :
  ¬ same_store self d w →
  (self = Global ∧ d = Syntax ∨ self = Syntax ∧ d = Global) →
  SyntaxFontSizeCommand.settings_file w ≠ Preferences.
Proof. intros Hnot Hpair Heq. apply Hnot. by right. Qed.

Lemma store_set_font_size_other self d v w :
  ¬ same_store self d w → store d (set_font_size self v w) = store d w.
Proof.
  intros Hnot.
  destruct self, d; try reflexivity; try (by destruct Hnot; left).
  - (* Global writes, Syntax reads *)
    pose proof (not_same_store_file _ _ _ Hnot
                  (or_introl (conj eq_refl eq_refl))) as Hne.
    cbn [store set_font_size].
    unfold GlobalFontSizeCommand.set_font_size, save_settings.
    change (SyntaxFontSizeCommand.settings_file (emit _ _))
      with (SyntaxFontSizeCommand.settings_file w).
    rewrite load_settings_emit. by apply load_settings_set_ne.
  - (* Syntax writes, Global reads *)
    pose proof (not_same_store_file _ _ _ Hnot
                  (or_intror (conj eq_refl eq_refl))) as Hne.
    cbn [store set_font_size].
    unfold SyntaxFontSizeCommand.set_font_size, save_settings.
    rewrite load_settings_emit. by apply load_settings_set_ne.
Qed.

Lemma store_erase_font_size_other self d w :
  ¬ same_store self d w → store d (erase_font_size self w) = store d w.
Proof.
  intros Hnot. destruct self.
  - cbn [erase_font_size]. unfold GlobalFontSizeCommand.erase_font_size.
    destruct (global_font_constraints w) as [[dflt ?] ?].
    by apply (store_set_font_size_other Global d).
  - cbn [erase_font_size]. unfold WindowFontSizeCommand.erase_font_size.
    destruct (settings_has _ _); [|done].
    destruct d; try reflexivity. by destruct Hnot; left.
  - destruct d; try reflexivity; [|by destruct Hnot; left].
    pose proof (not_same_store_file _ _ _ Hnot
                  (or_intror (conj eq_refl eq_refl))) as Hne.
    cbn [store erase_font_size].
    unfold SyntaxFontSizeCommand.erase_font_size, save_settings.
    rewrite load_settings_emit. by apply load_settings_erase_ne.
  - destruct d; try reflexivity. by destruct Hnot; left.
Qed.

End isolation.

(** X2: a command leaves the other domains alone.  When [zoom_font] returns
    normally for one command class, the store of every other class is what
    it was, and so is the font size that class reads; the one exception is
    a syntax called [Preferences], whose store is the global one. *)
Theorem zoom_font_other_domains
    (self d : domain) (action : value) (w w' : world)
    (Hrun : zoom_font self action w = Ok w')
    (Hother : ¬ same_store self d w) :
  store d w' = store d w ∧ get_font_size d w' = get_font_size d w.
Proof.
  assert (Hstore : store d w' = store d w).
  { apply zoom_font_Ok in Hrun
      as [(_ & ? & ? & _ & _ & ->)|[(_ & ? & ? & _ & _ & ->)
         |[(_ & ->)|(_ & _ & _ & ->)]]].
    - by apply store_set_font_size_other.
    - by apply store_set_font_size_other.
    - by apply store_erase_font_size_other.
    - by destruct d. }
  split; [exact Hstore|].
  rewrite !get_font_size_store, Hstore. unfold default_font.
  by rewrite (keeps_constraints w w' (keeps_zoom_font self action w w' Hrun)).
Qed.

Lemma zoom_font_other_domains_witness :
  ¬ same_store View Global sample_world
  ∧ ∃ w' : world,
      zoom_font View (VStr "increase") sample_world = Ok w'
      ∧ get_font_size View w' = VInt 17
      ∧ get_font_size Global w' = VInt 12.
Proof.
  assert (Hother : ¬ same_store View Global sample_world).
  { intros [Heq|[[[Heq _]|[Heq _]] _]]; discriminate Heq. }
  split; [exact Hother|].
  eexists. split; [reflexivity|]. split; [reflexivity|].
  rewrite (proj2 (zoom_font_other_domains View Global (VStr "increase")
                    sample_world _ eq_refl Hother)).
  reflexivity.
Defined.

(** The exception at work: with a syntax called [Preferences] the Syntax
    command writes the global font size. *)
Example syntax_named_preferences :
  let w := {| files := {[ Preferences := {[ "font_size" := VInt 12 ]} ]};
              window_project := None; view_settings := ∅;
              syntax_base := "Preferences"; trace := [] |} in
  (w' ← run Syntax (VStr "increase") w; mret (get_font_size Global w'))
  = Ok (VInt 13).
Proof. reflexivity. Qed.

(** ** Exceptions *)

Section exceptions.
Implicit Types (self : domain) (w : world) (v action : value).

Lemma is_int_VInt n : is_int (VInt n).
Proof. by exists n. Qed.

Lemma not_is_int_VNone : ¬ is_int VNone.
Proof. by intros [n Hn]. Qed.

Lemma not_is_int_VStr s : ¬ is_int (VStr s).
Proof. by intros [n Hn]. Qed.

Lemma increase_font_Raise self w :
  increase_font self w = Raise TypeError
  ↔ ¬ (is_int (get_font_size self w) ∧ is_int (max_font w)).
Proof.
  unfold increase_font, max_font.
  destruct (global_font_constraints w) as [[? ?] mx]. cbn [snd].
  destruct (get_font_size self w) as [|current|s]; cbn.
  - split; [|done]. intros _ [H _]. by apply not_is_int_VNone in H.
  - destruct mx as [|bound|s]; cbn.
    + split; [|done]. intros _ [_ H]. by apply not_is_int_VNone in H.
    + split; [done|]. intros H. destruct H. split; apply is_int_VInt.
    + split; [|done]. intros _ [_ H]. by apply not_is_int_VStr in H.
  - split; [|done]. intros _ [H _]. by apply not_is_int_VStr in H.
Qed.

Lemma decrease_font_Raise self w :
  decrease_font self w = Raise TypeError
  ↔ ¬ (is_int (get_font_size self w) ∧ is_int (min_font w)).
Proof.
  unfold decrease_font, min_font.
  destruct (global_font_constraints w) as [[? mn] ?]. cbn [fst snd].
  destruct (get_font_size self w) as [|current|s]; cbn.
  - split; [|done]. intros _ [H _]. by apply not_is_int_VNone in H.
  - destruct mn as [|bound|s]; cbn.
    + split; [|done]. intros _ [_ H]. by apply not_is_int_VNone in H.
    + split; [done|]. intros H. destruct H. split; apply is_int_VInt.
    + split; [|done]. intros _ [_ H]. by apply not_is_int_VStr in H.
  - split; [|done]. intros _ [H _]. by apply not_is_int_VStr in H.
Qed.

End exceptions.


(** A maximum that was configured as a string makes every increase fail,
    and leaves decreases working. *)
Example max_font_size_as_string :
  let w := world_of {[ "font_size" := VInt 12;
                       "max_font_size" := VStr "128" ]} in
  run Global (VStr "increase") w = Raise TypeError
  ∧ (w' ← run Global (VStr "decrease") w; mret (get_font_size Global w'))
    = Ok (VInt 11).
Proof. split; reflexivity. Qed.

(** ** Steps in a row *)

Section steps.
Implicit Types (self : domain) (w : world) (current bound : Z).

Ltac tiers :=
  rewrite ?increased_compute, ?decreased_compute;
  unfold compute_increase, compute_decrease, increase_step, decrease_step,
         drift in *;
  repeat case_decide; lia.

Lemma run_increase self w current bound :
  get_font_size self w = VInt current →
  max_font w = VInt bound →
  run self (VStr "increase") w
  = Ok (set_font_size self (VInt (increased current bound)) w).
Proof.
  intros Hc Hb. unfold run, zoom_font. rewrite decide_True by done.
  by apply increase_font_int.
Qed.

Lemma run_decrease self w current bound :
  get_font_size self w = VInt current →
  min_font w = VInt bound →
  run self (VStr "decrease") w
  = Ok (set_font_size self (VInt (decreased current bound)) w).
Proof.
  intros Hc Hb. unfold run, zoom_font.
  rewrite decide_False by done. rewrite decide_True by done.
  by apply decrease_font_int.
Qed.

Lemma min_font_set_font_size self (v : value) w :
  min_font (set_font_size self v w) = min_font w.
Proof. unfold min_font. by rewrite constraints_set_font_size. Qed.

Lemma max_font_set_font_size self (v : value) w :
  max_font (set_font_size self v w) = max_font w.
Proof. unfold max_font. by rewrite constraints_set_font_size. Qed.

Lemma increased_range current bound :
  current ≤ bound →
  current ≤ increased current bound ≤ bound
  ∧ (current < bound → current < increased current bound).
Proof. intros. tiers. Qed.

Lemma decreased_range current bound :
  bound ≤ current →
  bound ≤ decreased current bound ≤ current
  ∧ (bound < current → decreased current bound < current).
Proof. intros. tiers. Qed.

Lemma decreased_increased current lo hi :
  lo ≤ current → current + increase_step current ≤ hi →
  decreased (increased current hi) lo = current.
Proof. intros. tiers. Qed.

Lemma increased_decreased current lo hi :
  lo ≤ current - decrease_step current → current ≤ hi →
  increased (decreased current lo) hi = Z.min (current + drift current) hi.
Proof. intros. tiers. Qed.

(** Enough increases end at the maximum. *)
Lemma increases_reach self (n : nat) : ∀ w current bound,
  get_font_size self w = VInt current →
  max_font w = VInt bound →
  current ≤ bound → bound - current ≤ Z.of_nat n →
  ∃ w', run_all (replicate n (self, VStr "increase")) w = Ok w'
        ∧ get_font_size self w' = VInt bound.
Proof.
  induction n as [|n IH]; intros w current bound Hc Hb Hle Hn.
  - exists w. split; [done|]. rewrite Hc. f_equal. lia.
  - cbn [replicate run_all].
    rewrite (run_increase self w current bound Hc Hb). cbn.
    destruct (increased_range current bound Hle) as [[? ?] Hlt].
    apply (IH _ (increased current bound) bound).
    + apply get_set_font_size.
    + by rewrite max_font_set_font_size.
    + done.
    + destruct (decide (current < bound)); [specialize (Hlt ltac:(done))|];
        lia.
Qed.

Lemma decreases_reach self (n : nat) : ∀ w current bound,
  get_font_size self w = VInt current →
  min_font w = VInt bound →
  bound ≤ current → current - bound ≤ Z.of_nat n →
  ∃ w', run_all (replicate n (self, VStr "decrease")) w = Ok w'
        ∧ get_font_size self w' = VInt bound.
Proof.
  induction n as [|n IH]; intros w current bound Hc Hb Hle Hn.
  - exists w. split; [done|]. rewrite Hc. f_equal. lia.
  - cbn [replicate run_all].
    rewrite (run_decrease self w current bound Hc Hb). cbn.
    destruct (decreased_range current bound Hle) as [[? ?] Hlt].
    apply (IH _ (decreased current bound) bound).
    + apply get_set_font_size.
    + by rewrite min_font_set_font_size.
    + done.
    + destruct (decide (bound < current)); [specialize (Hlt ltac:(done))|];
        lia.
Qed.

End steps.

(** X4: for any configured integers minimum and maximum, a size between
    them stays between them: an increase writes a size that is at most the
    maximum and not below the old one, and above it unless the old one was
    the maximum; a decrease writes a size that is at least the minimum and
    not above the old one, and below it unless the old one was the
    minimum. *)
Theorem zoom_font_keeps_range
    (self : domain) (w : world) (current min max : Z)
    (Hcurrent : get_font_size self w = VInt current)
    (Hmin : min_font w = VInt min)
    (Hmax : max_font w = VInt max)
    (Hrange : min ≤ current ≤ max) :
  ∃ (up down : world) (more less : Z),
    run self (VStr "increase") w = Ok up
    ∧ get_font_size self up = VInt more
    ∧ current ≤ more ≤ max ∧ (current < max → current < more)
    ∧ run self (VStr "decrease") w = Ok down
    ∧ get_font_size self down = VInt less
    ∧ min ≤ less ≤ current ∧ (min < current → less < current).
Proof.
  destruct Hrange as [Hlo Hhi].
  destruct (increased_range current max Hhi) as [Hup Hup'].
  destruct (decreased_range current min Hlo) as [Hdown Hdown'].
  exists (set_font_size self (VInt (increased current max)) w),
         (set_font_size self (VInt (decreased current min)) w),
         (increased current max), (decreased current min).
  split; [by apply run_increase|]. split; [apply get_set_font_size|].
  split; [done|]. split; [done|].
  split; [by apply run_decrease|]. split; [apply get_set_font_size|].
  by split.
Qed.

Lemma zoom_font_keeps_range_witness :
  let w := world_of {[ "font_size" := VInt 39; "min_font_size" := VInt 20;
                       "max_font_size" := VInt 40 ]} in
  (get_font_size Global w = VInt 39 ∧ min_font w = VInt 20
   ∧ max_font w = VInt 40 ∧ 20 ≤ 39 ≤ 40)
  ∧ ∃ (up down : world) (more less : Z),
      run Global (VStr "increase") w = Ok up
      ∧ get_font_size Global up = VInt more
      ∧ 39 ≤ more ≤ 40 ∧ (39 < 40 → 39 < more)
      ∧ run Global (VStr "decrease") w = Ok down
      ∧ get_font_size Global down = VInt less
      ∧ 20 ≤ less ≤ 39 ∧ (20 < 39 → less < 39).
Proof.
  intros w. split; [repeat split; lia|].
  apply (zoom_font_keeps_range Global w 39 20 40); [reflexivity..|lia].
Defined.

(** X5: an increase that was not cut by the maximum is undone by the
    decrease that follows it: from a size that is not below the minimum the
    two commands in a row end on the size they started from. *)
Theorem increase_then_decrease
    (self : domain) (w : world) (current min max : Z)
    (Hcurrent : get_font_size self w = VInt current)
    (Hmin : min_font w = VInt min)
    (Hmax : max_font w = VInt max)
    (Hlow : min ≤ current)
    (Hroom : current + increase_step current ≤ max) :
  ∃ w' : world,
    run_all [(self, VStr "increase"); (self, VStr "decrease")] w = Ok w'
    ∧ get_font_size self w' = VInt current.
Proof.
  cbn [run_all].
  rewrite (run_increase self w current max Hcurrent Hmax). cbn.
  rewrite (run_decrease self _ (increased current max) min);
    [|apply get_set_font_size|by rewrite min_font_set_font_size].
  cbn. eexists. split; [reflexivity|].
  rewrite get_set_font_size. f_equal. by apply decreased_increased.
Qed.

Lemma increase_then_decrease_witness :
  let w := world_of {[ "font_size" := VInt 35 ]} in
  (get_font_size Global w = VInt 35 ∧ min_font w = VInt 8
   ∧ max_font w = VInt 128 ∧ 8 ≤ 35 ∧ 35 + increase_step 35 ≤ 128)
  ∧ ∃ w' : world,
      run_all [(Global, VStr "increase"); (Global, VStr "decrease")] w
      = Ok w'
      ∧ get_font_size Global w' = VInt 35.
Proof.
  intros w. split; [repeat split; vm_compute; congruence|].
  apply (increase_then_decrease Global w 35 8 128);
    [reflexivity..|lia|vm_compute; congruence].
Defined.

(** X6: the other way round the tables do not always match.  When neither
    bound cuts in, a decrease followed by an increase ends on the size it
    started from, except from 25, 38 and 39, where it ends on 26, 40 and
    41 (or on the maximum, if that is smaller). *)
Theorem decrease_then_increase
    (self : domain) (w : world) (current min max : Z)
    (Hcurrent : get_font_size self w = VInt current)
    (Hmin : min_font w = VInt min)
    (Hmax : max_font w = VInt max)
    (Hroom : min ≤ current - decrease_step current)
    (Hhigh : current ≤ max) :
  ∃ w' : world,
    run_all [(self, VStr "decrease"); (self, VStr "increase")] w = Ok w'
    ∧ get_font_size self w' = VInt (Z.min (current + drift current) max)
    ∧ (current ∉ [25; 38; 39] → get_font_size self w' = VInt current).
Proof.
  cbn [run_all].
  rewrite (run_decrease self w current min Hcurrent Hmin). cbn.
  rewrite (run_increase self _ (decreased current min) max);
    [|apply get_set_font_size|by rewrite max_font_set_font_size].
  cbn. eexists. split; [reflexivity|].
  rewrite get_set_font_size, (increased_decreased current min max) by done.
  split; [done|]. intros Hnot. f_equal.
  rewrite !elem_of_cons, elem_of_nil in Hnot.
  unfold drift. repeat case_decide; lia.
Qed.

Lemma decrease_then_increase_witness :
  let w := world_of {[ "font_size" := VInt 38 ]} in
  (get_font_size Global w = VInt 38 ∧ min_font w = VInt 8
   ∧ max_font w = VInt 128 ∧ 8 ≤ 38 - decrease_step 38 ∧ 38 ≤ 128)
  ∧ ∃ w' : world,
      run_all [(Global, VStr "decrease"); (Global, VStr "increase")] w
      = Ok w'
      ∧ get_font_size Global w' = VInt 40.
Proof.
  intros w. split; [repeat split; vm_compute; congruence|].
  destruct (decrease_then_increase Global w 38 8 128)
    as (w' & Hrun & Hget & _);
    [reflexivity..|vm_compute; congruence|lia|].
  exists w'. split; [exact Hrun|exact Hget].
Defined.

(** X7: pressing long enough reaches the bound and stays on it.  From a
    size between the configured minimum and maximum, any number of
    increases that is at least the distance to the maximum ends exactly on
    the maximum, and any number of decreases that is at least the distance
    to the minimum ends exactly on the minimum; no run of them raises. *)
Theorem repeated_zoom_reaches_bound
    (self : domain) (w : world) (current min max : Z) (presses : nat)
    (Hcurrent : get_font_size self w = VInt current)
    (Hmin : min_font w = VInt min)
    (Hmax : max_font w = VInt max)
    (Hrange : min ≤ current ≤ max) :
  (max - current ≤ Z.of_nat presses →
   ∃ w', run_all (replicate presses (self, VStr "increase")) w = Ok w'
         ∧ get_font_size self w' = VInt max)
  ∧ (current - min ≤ Z.of_nat presses →
     ∃ w', run_all (replicate presses (self, VStr "decrease")) w = Ok w'
           ∧ get_font_size self w' = VInt min).
Proof.
  destruct Hrange as [Hlo Hhi]. split; intros Hn.
  - by apply (increases_reach self presses w current max).
  - by apply (decreases_reach self presses w current min).
Qed.

Lemma repeated_zoom_reaches_bound_witness :
  let w := world_of {[ "font_size" := VInt 30; "min_font_size" := VInt 28;
                       "max_font_size" := VInt 33 ]} in
  (get_font_size Global w = VInt 30 ∧ min_font w = VInt 28
   ∧ max_font w = VInt 33 ∧ 28 ≤ 30 ≤ 33
   ∧ 33 - 30 ≤ Z.of_nat 3 ∧ 30 - 28 ≤ Z.of_nat 3)
  ∧ (∃ w', run_all (replicate 3 (Global, VStr "increase")) w = Ok w'
           ∧ get_font_size Global w' = VInt 33)
  ∧ (∃ w', run_all (replicate 3 (Global, VStr "decrease")) w = Ok w'
           ∧ get_font_size Global w' = VInt 28).
Proof.
  intros w. split; [repeat split; vm_compute; congruence|].
  destruct (repeated_zoom_reaches_bound Global w 30 28 33 3)
    as [Hup Hdown]; [reflexivity..|lia|].
  split; [apply Hup|apply Hdown]; vm_compute; congruence.
Defined.

(** X8: each action clamps on one side only.  A decrease from far above
    the maximum writes a size that is still above the maximum, and an
    increase from far below the minimum writes a size that is still below
    the minimum: only the action that moves towards a bound enforces it. *)
Theorem clamp_is_one_sided
    (self : domain) (w : world) (current min max : Z)
    (Hcurrent : get_font_size self w = VInt current)
    (Hmin : min_font w = VInt min)
    (Hmax : max_font w = VInt max) :
  (max + 4 < current →
   ∃ (w' : world) (less : Z),
     run self (VStr "decrease") w = Ok w'
     ∧ get_font_size self w' = VInt less ∧ max < less)
  ∧ (current + 4 < min →
     ∃ (w' : world) (more : Z),
       run self (VStr "increase") w = Ok w'
       ∧ get_font_size self w' = VInt more ∧ more < min).
Proof.
  split; intros Hfar.
  - exists (set_font_size self (VInt (decreased current min)) w),
           (decreased current min).
    split; [by apply run_decrease|]. split; [apply get_set_font_size|].
    rewrite decreased_compute. unfold compute_decrease, decrease_step.
    repeat case_decide; lia.
  - exists (set_font_size self (VInt (increased current max)) w),
           (increased current max).
    split; [by apply run_increase|]. split; [apply get_set_font_size|].
    rewrite increased_compute. unfold compute_increase, increase_step.
    repeat case_decide; lia.
Qed.

Lemma clamp_is_one_sided_witness :
  let hi := world_of {[ "font_size" := VInt 200 ]} in
  let lo := world_of {[ "font_size" := VInt 2 ]} in
  (get_font_size Global hi = VInt 200 ∧ min_font hi = VInt 8
   ∧ max_font hi = VInt 128 ∧ 128 + 4 < 200
   ∧ (w' ← run Global (VStr "decrease") hi; mret (get_font_size Global w'))
     = Ok (VInt 196))
  ∧ (get_font_size Global lo = VInt 2 ∧ min_font lo = VInt 8
     ∧ max_font lo = VInt 128 ∧ 2 + 4 < 8
     ∧ ∃ (w' : world) (more : Z),
         run Global (VStr "increase") lo = Ok w'
         ∧ get_font_size Global w' = VInt more ∧ more < 8).
Proof.
  intros hi lo. split.
  - do 4 (split; [vm_compute; congruence|]).
    destruct (proj1 (clamp_is_one_sided Global hi 200 8 128
                       eq_refl eq_refl eq_refl)) as (w' & less & Hrun & _);
      [lia|].
    reflexivity.
  - do 4 (split; [vm_compute; congruence|]).
    apply (proj2 (clamp_is_one_sided Global lo 2 8 128
                    eq_refl eq_refl eq_refl)).
    lia.
Defined.

(** ** More on the first run *)

Section first_run_frame.
Implicit Types (w : world) (file key : string).

Lemma plugin_loaded_fields w :
  window_project (plugin_loaded w) = window_project w
  ∧ view_settings (plugin_loaded w) = view_settings w
  ∧ syntax_base (plugin_loaded w) = syntax_base w.
Proof.
  rewrite plugin_loaded_unfold.
  by destruct (settings_has _ "default_font_size"),
              (settings_has _ "min_font_size"),
              (settings_has _ "max_font_size").
Qed.

Lemma plugin_loaded_other_files w file :
  file ≠ Preferences →
  load_settings file (plugin_loaded w) = load_settings file w.
Proof.
  intros Hne. rewrite plugin_loaded_unfold.
  destruct (settings_has _ "default_font_size"),
           (settings_has _ "min_font_size"),
           (settings_has _ "max_font_size");
    cbn [andb]; unfold save_settings;
    rewrite ?load_settings_emit, ?load_settings_set_ne by done; done.
Qed.

Lemma plugin_loaded_other_keys w key :
  key ∉ constraint_names →
  load_settings Preferences (plugin_loaded w) !! key
  = load_settings Preferences w !! key.
Proof.
  intros Hnot. rewrite plugin_loaded_store. apply lookup_union_l.
  unfold constraint_names in Hnot.
  rewrite !elem_of_cons, elem_of_nil in Hnot.
  rewrite !lookup_insert_ne by (intros <-; apply Hnot; auto).
  apply lookup_singleton_ne. intros <-. apply Hnot. auto.
Qed.

Lemma plugin_loaded_bounds w :
  min_font (plugin_loaded w) = min_font w
  ∧ max_font (plugin_loaded w) = max_font w.
Proof.
  unfold min_font, max_font, global_font_constraints, settings_get.
  cbn [fst snd]. rewrite plugin_loaded_store, !lookup_union.
  split.
  - rewrite lookup_insert_ne, lookup_insert_eq by done.
    by destruct (load_settings Preferences w !! "min_font_size").
  - rewrite !lookup_insert_ne, lookup_singleton_eq by done.
    by destruct (load_settings Preferences w !! "max_font_size").
Qed.

Lemma plugin_loaded_default w :
  default_font (plugin_loaded w)
  = default (settings_get (load_settings Preferences w) "font_size" VNone)
            (load_settings Preferences w !! "default_font_size").
Proof.
  unfold default_font, global_font_constraints, settings_get.
  cbn [fst]. rewrite plugin_loaded_store, lookup_union, lookup_insert_eq.
  by destruct (load_settings Preferences w !! "default_font_size").
Qed.

Lemma plugin_loaded_store_font_size (self : domain) w :
  store self (plugin_loaded w) !! "font_size" = store self w !! "font_size".
Proof.
  destruct (plugin_loaded_fields w) as (Hwin & Hview & Hsyn).
  destruct self; cbn [store].
  - apply plugin_loaded_other_keys. unfold constraint_names.
    rewrite !elem_of_cons, elem_of_nil. by intros [?|[?|[?|?]]].
  - unfold WindowFontSizeCommand.get_window_settings. by rewrite Hwin.
  - unfold SyntaxFontSizeCommand.settings_file. rewrite Hsyn.
    destruct (decide (syntax_base w +:+ ".sublime-settings" = Preferences))
      as [->|Hne].
    + apply plugin_loaded_other_keys. unfold constraint_names.
      rewrite !elem_of_cons, elem_of_nil. by intros [?|[?|[?|?]]].
    + by rewrite plugin_loaded_other_files.
  - by rewrite Hview.
Qed.

End first_run_frame.

(** X9: what the first run leaves alone.  [plugin_loaded] touches neither
    the window, nor the view, nor any settings file beside the global
    preferences, nor any key of these beside the three constraint keys;
    and since it seeds the minimum and the maximum with the very values
    that [global_font_constraints] falls back on, the bounds that the
    commands see are the same before and after it. *)
Theorem plugin_loaded_frame (w : world) :
  let w' := plugin_loaded w in
  window_project w' = window_project w
  ∧ view_settings w' = view_settings w
  ∧ syntax_base w' = syntax_base w
  ∧ (∀ file, file ≠ Preferences →
       load_settings file w' = load_settings file w)
  ∧ (∀ key, key ∉ constraint_names →
       load_settings Preferences w' !! key
       = load_settings Preferences w !! key)
  ∧ min_font w' = min_font w
  ∧ max_font w' = max_font w.
Proof.
  cbn zeta.
  destruct (plugin_loaded_fields w) as (Hwin & Hview & Hsyn).
  destruct (plugin_loaded_bounds w) as [Hmin Hmax].
  repeat split; try done.
  - apply plugin_loaded_other_files.
  - apply plugin_loaded_other_keys.
Qed.

(** ** Reset, seen from the stores *)

Section reset.
Implicit Types (self : domain) (w : world) (v action : value) (key : string).

Lemma run_reset self w :
  run self (VStr "reset") w = Ok (erase_font_size self w).
Proof. reflexivity. Qed.

Lemma store_erase_font_size self w :
  self ≠ Global →
  store self (erase_font_size self w) = delete "font_size" (store self w).
Proof.
  intros Hself. destruct self; [done|..]; cbn [store erase_font_size].
  - unfold WindowFontSizeCommand.erase_font_size.
    destruct (settings_has _ _) eqn:Hhas.
    + by rewrite get_set_window_settings.
    + apply settings_has_false in Hhas. by rewrite delete_id.
  - change (SyntaxFontSizeCommand.settings_file
              (SyntaxFontSizeCommand.erase_font_size w))
      with (SyntaxFontSizeCommand.settings_file w).
    unfold SyntaxFontSizeCommand.erase_font_size, save_settings.
    by rewrite load_settings_emit, load_settings_erase.
  - reflexivity.
Qed.

Lemma default_font_erase_font_size self w :
  default_font (erase_font_size self w) = default_font w.
Proof.
  unfold default_font.
  by rewrite (keeps_constraints w _ (keeps_erase_font_size self w)).
Qed.

(** After a reset every class reads the configured default. *)
Lemma get_erase_font_size self w :
  get_font_size self (erase_font_size self w) = default_font w.
Proof.
  assert (Hother : self ≠ Global →
            get_font_size self (erase_font_size self w) = default_font w).
  { intros Hself. rewrite get_font_size_store, store_erase_font_size by done.
    by rewrite lookup_delete_eq, default_font_erase_font_size. }
  destruct self; [|by apply Hother..].
  cbn [erase_font_size]. unfold GlobalFontSizeCommand.erase_font_size.
  unfold default_font.
  destruct (global_font_constraints w) as [[dflt ?] ?]. cbn [fst].
  apply (get_set_font_size Global).
Qed.

Lemma keeps_store self w w' key :
  keeps_all_but_font_size w w' → key ≠ "font_size" →
  store self w' !! key = store self w !! key.
Proof.
  intros (Hsyn & Hfiles & Hview & Hwin & _) Hkey.
  destruct self; cbn [store].
  - by apply Hfiles.
  - by apply Hwin.
  - unfold SyntaxFontSizeCommand.settings_file. rewrite Hsyn.
    by apply Hfiles.
  - by apply Hview.
Qed.

End reset.

(** X10: reset goes back to the size at load time.  When the global
    preferences held a font size but no default at load time, then after
    [plugin_loaded] and any commands that returned normally, a reset in any
    domain makes that domain read the font size that was in the global
    preferences when the plugin was loaded. *)
Theorem reset_restores_load_time_size
    (self : domain) (commands : list (domain * value)) (w w1 : world)
    (size : value)
    (Hdefault : load_settings Preferences w !! "default_font_size" = None)
    (Hsize : load_settings Preferences w !! "font_size" = Some size)
    (Hrun : run_all commands (plugin_loaded w) = Ok w1) :
  ∃ w2 : world,
    run self (VStr "reset") w1 = Ok w2 ∧ get_font_size self w2 = size.
Proof.
  exists (erase_font_size self w1). split; [apply run_reset|].
  rewrite get_erase_font_size. unfold default_font.
  rewrite (keeps_constraints _ _ (keeps_run_all _ _ _ Hrun)).
  fold (default_font (plugin_loaded w)).
  rewrite plugin_loaded_default, Hdefault. unfold settings_get.
  by rewrite Hsize.
Qed.

Lemma reset_restores_load_time_size_witness :
  let w := world_of {[ "font_size" := VInt 12 ]} in
  (load_settings Preferences w !! "default_font_size" = None
   ∧ load_settings Preferences w !! "font_size" = Some (VInt 12))
  ∧ ∃ w1 w2 : world,
      run_all [(Global, VStr "increase"); (View, VStr "increase");
               (Global, VStr "increase")] (plugin_loaded w) = Ok w1
      ∧ run Global (VStr "reset") w1 = Ok w2
      ∧ get_font_size Global w2 = VInt 12.
Proof.
  intros w.
  assert (Hdefault : load_settings Preferences w !! "default_font_size"
                     = None) by (vm_compute; reflexivity).
  assert (Hsize : load_settings Preferences w !! "font_size"
                  = Some (VInt 12)) by (vm_compute; reflexivity).
  split; [by split|].
  destruct (run_all [(Global, VStr "increase"); (View, VStr "increase");
                     (Global, VStr "increase")] (plugin_loaded w))
    as [w1|] eqn:Hrun; [|by vm_compute in Hrun].
  destruct (reset_restores_load_time_size Global _ w w1 (VInt 12)
              Hdefault Hsize Hrun) as (w2 & Hreset & Hget).
  exists w1, w2. split; [reflexivity|]. split; [exact Hreset|exact Hget].
Defined.

(** X11: a first run on preferences without a font size.  When the global
    preferences hold neither ["font_size"] nor ["default_font_size"], a
    domain without a size of its own reads 10 before [plugin_loaded]; the
    first run then seeds the default with [None], after which that domain
    reads [None] and both "increase" and "decrease" raise [TypeError]. *)
Theorem first_run_without_font_size
    (self : domain) (w : world)
    (Hsize : load_settings Preferences w !! "font_size" = None)
    (Hdefault : load_settings Preferences w !! "default_font_size" = None)
    (Hstore : store self w !! "font_size" = None) :
  get_font_size self w = VInt 10
  ∧ get_font_size self (plugin_loaded w) = VNone
  ∧ run self (VStr "increase") (plugin_loaded w) = Raise TypeError
  ∧ run self (VStr "decrease") (plugin_loaded w) = Raise TypeError.
Proof.
  assert (Hafter : get_font_size self (plugin_loaded w) = VNone).
  { rewrite get_font_size_store, plugin_loaded_store_font_size, Hstore.
    cbn [default]. rewrite plugin_loaded_default, Hdefault.
    unfold settings_get. by rewrite Hsize. }
  split; [|split; [exact Hafter|split]].
  - rewrite get_font_size_store, Hstore.
    unfold default_font, global_font_constraints, settings_get.
    by rewrite Hdefault.
  - unfold run, zoom_font. rewrite decide_True by done.
    apply increase_font_Raise. rewrite Hafter.
    intros [Hint _]. by apply not_is_int_VNone in Hint.
  - unfold run, zoom_font.
    rewrite decide_False by done. rewrite decide_True by done.
    apply decrease_font_Raise. rewrite Hafter.
    intros [Hint _]. by apply not_is_int_VNone in Hint.
Qed.

Lemma first_run_without_font_size_witness :
  let w := world_of ∅ in
  (load_settings Preferences w !! "font_size" = None
   ∧ load_settings Preferences w !! "default_font_size" = None
   ∧ store View w !! "font_size" = None)
  ∧ (w' ← run View (VStr "increase") w; mret (get_font_size View w'))
    = Ok (VInt 11)
  ∧ run View (VStr "increase") (plugin_loaded w) = Raise TypeError.
Proof.
  intros w. split; [repeat split|]. split; [reflexivity|].
  exact (proj1 (proj2 (proj2
    (first_run_without_font_size View w eq_refl eq_refl eq_refl)))).
Defined.

(** X12: a reset forgets the command before it.  In the Window, Syntax and
    View domains, whatever command returned normally, the reset that
    follows it leaves the domain's store as it was before that command,
    minus the ["font_size"] key; in a domain that held no size, the store
    is back to exactly what it was. *)
Theorem reset_forgets
    (self : domain) (action : value) (w w1 : world)
    (Hself : self ≠ Global)
    (Hrun : run self action w = Ok w1) :
  ∃ w2 : world,
    run self (VStr "reset") w1 = Ok w2
    ∧ store self w2 = delete "font_size" (store self w)
    ∧ (store self w !! "font_size" = None → store self w2 = store self w).
Proof.
  exists (erase_font_size self w1). split; [apply run_reset|].
  assert (Hstore : store self (erase_font_size self w1)
                   = delete "font_size" (store self w)).
  { rewrite store_erase_font_size by done. apply map_eq. intros key.
    destruct (decide (key = "font_size")) as [->|Hkey].
    - by rewrite !lookup_delete_eq.
    - rewrite !lookup_delete_ne by done.
      by apply keeps_store; [apply (keeps_zoom_font self action)|]. }
  split; [exact Hstore|].
  intros Habsent. by rewrite Hstore, delete_id.
Qed.

Lemma reset_forgets_witness :
  let w := world_of {[ "default_font_size" := VInt 11 ]} in
  (Window ≠ Global ∧ store Window w !! "font_size" = None)
  ∧ ∃ w1 w2 : world,
      run Window (VStr "increase") w = Ok w1
      ∧ store Window w1 !! "font_size" = Some (VInt 12)
      ∧ run Window (VStr "reset") w1 = Ok w2
      ∧ store Window w2 = store Window w.
Proof.
  intros w.
  assert (Hself : Window ≠ Global) by discriminate.
  assert (Habsent : store Window w !! "font_size" = None)
    by (vm_compute; reflexivity).
  split; [by split|].
  destruct (reset_forgets Window (VStr "increase") w _ Hself eq_refl)
    as (w2 & Hreset & _ & Hback).
  eexists. exists w2. split; [reflexivity|].
  split; [vm_compute; reflexivity|]. split; [exact Hreset|].
  exact (Hback Habsent).
Defined.

(** ** The calls made into the host *)

Section host_calls.
Implicit Types (self : domain) (w : world) (v action : value).


End host_calls.


